(** * Live configuration and admission control of the greenlight API server

    Shallow embedding of [cmd/api/main.go] (the three configuration
    watchers), [cmd/api/middleware.go] ([recoverPanic], [rateLimit] and its
    sweep goroutine, [enableCORS], [authenticate], the [require*] chain,
    [metricsResponseWriter] and [metrics]), [cmd/api/errors.go],
    [internal/config/config.go] ([LoadConfig]), [internal/data/db.go]
    ([PoolWrapper.CreatePool]), [internal/data/token.go]
    ([ValidateTokenPlaintext]) and [internal/data/permission.go]
    ([Permissions.Include]).

    Conventions:
    - time is a [Z] count of nanoseconds, as Go's [time.Duration];
      [time.Since x] at the instant [now] is [now - x];
    - the token count and the limit of a [rate.Limiter] are [float64] in Go;
      they are exact rationals [Q] here;
    - the results of the outside world (reading a file, opening a pool,
      pinging the database) are explicit inputs of each step. *)

From Stdlib Require Import ZArith QArith Qround Lqa List Bool.
From stdpp Require Import base gmap strings list pretty.

Open Scope Z_scope.

(** Go durations, in nanoseconds. *)
Definition Millisecond : Z := 1000000.
Definition Second : Z := 1000 * Millisecond.
Definition Minute : Z := 60 * Second.

(** ** [golang.org/x/time/rate]: the token bucket the middleware uses

    This is the dependency [golang.org/x/time/rate] (not code of this
    repository). Its version is not pinned: the [Makefile] fetches it with
    [go get golang.org/x/time/rate], so the latest release (v0.16) is
    embedded here, from its [Limiter]: [NewLimiter], [advance],
    [Limit.tokensFromDuration], [Limit.durationFromTokens], [reserveN] with
    [maxFutureReserve = 0] and [Allow = AllowN(now, 1)].
    [last = None] is Go's zero [time.Time]: [t.Sub] of it saturates to the
    largest [time.Duration]. The [Inf] limit is not a rational and is left
    out. *)
Module Rate.

Record Limiter := mkLimiter {
  limit : Q;
  burst : Z;
  tokens : Q;
  last : option Z
}.

(** [a < b] on float64 limits and token counts. *)
Definition Qltb (a b : Q) : bool := negb (Qle_bool b a).

(** [math.MaxInt64], the saturation value of [time.Time.Sub] and the
    [InfDuration] of the package. *)
Definition maxDuration : Z := 9223372036854775807.
Definition InfDuration : Z := maxDuration.

(** [NewLimiter]: [tokens: float64(b)], [last] the zero time. *)
Definition NewLimiter (r : Q) (b : Z) : Limiter :=
  mkLimiter r b (inject_Z b) None.

(** [if limit <= 0 { return 0 }; return d.Seconds() * float64(limit)]. *)
Definition tokensFromDuration (lim : Q) (d : Z) : Q :=
  if Qle_bool lim 0 then 0%Q else (inject_Z d / inject_Z Second * lim)%Q.

(** [time.Duration(x)] of a float64: truncation toward zero. *)
Definition Qtrunc (q : Q) : Z := if Qle_bool 0 q then Qfloor q else Qceiling q.

(** [if limit <= 0 { return InfDuration }; duration := tokens / limit * 1e9;
    if duration > MaxInt64 { return InfDuration }; return time.Duration(duration)]. *)
Definition durationFromTokens (lim : Q) (tk : Q) : Z :=
  if Qle_bool lim 0 then InfDuration
  else
    let duration := (tk / lim * inject_Z Second)%Q in
    if Qltb (inject_Z maxDuration) duration then InfDuration else Qtrunc duration.

(** [advance]: [if t.Before(last) { last = t }], then the tokens accrued in
    [t.Sub(last)], capped at [burst]. *)
Definition advance (lim : Limiter) (t : Z) : Q :=
  let elapsed :=
    match last lim with
    | None => maxDuration
    | Some l => let l' := if t <? l then t else l in t - l'
    end in
  let tk := (tokens lim + tokensFromDuration (limit lim) elapsed)%Q in
  if Qltb (inject_Z (burst lim)) tk then inject_Z (burst lim) else tk.

(** [reserveN(t, n, 0)]: [tokens -= n]; the wait is
    [durationFromTokens(-tokens)] when [tokens < 0] and [0] otherwise;
    [ok := n <= burst && waitDuration <= 0]; only an [ok] reservation
    stores [last = t] and the new count. *)
Definition reserveN (lim : Limiter) (t n : Z) : bool * Limiter :=
  let tk := (advance lim t - inject_Z n)%Q in
  let waitDuration := if Qltb tk 0 then durationFromTokens (limit lim) (- tk) else 0 in
  if (n <=? burst lim) && (waitDuration <=? 0)
  then (true, mkLimiter (limit lim) (burst lim) tk (Some t))
  else (false, lim).

Definition Allow (lim : Limiter) (t : Z) : bool * Limiter := reserveN lim t 1.

(** Successive [Allow] calls on one limiter at the instants [ts]. *)
Fixpoint allow_seq (lim : Limiter) (ts : list Z) : list bool * Limiter :=
  match ts with
  | [] => ([], lim)
  | t :: ts' =>
      let '(ok, lim') := Allow lim t in
      let '(oks, lim'') := allow_seq lim' ts' in
      (ok :: oks, lim'')
  end.


End Rate.

(** ** [application.rateLimit] *)
Module Limiting.
Import Rate.

(** [config.LimiterConfig], reached by the middleware through the pointer
    [app.config.limiter] that the [dynamic.env] watcher updates in place. *)
Record LimiterConfig := mkLimiterConfig {
  Rps : Q;
  Burst : Z;
  Enabled : bool
}.

(** The [client] struct of the closure; [lastSeen] starts at the zero time. *)
Record client := mkClient {
  limiter : Limiter;
  lastSeen : Z
}.

Abbreviation clients_map := (gmap string client).

(** The handler returned by [rateLimit], for the request from [ip] at [now]:
    [true] means [next.ServeHTTP] runs, [false] means
    [rateLimitExceededResponse]. [clients[ip].lastSeen = time.Now()] and
    the [Allow] of the limiter read the same instant [now]. *)
Definition rateLimit (cfg : LimiterConfig) (clients : clients_map)
    (ip : string) (now : Z) : bool * clients_map :=
  if Enabled cfg then
    let c :=
      match clients !! ip with
      | Some c => c
      | None => mkClient (NewLimiter (Rps cfg) (Burst cfg)) 0
      end in
    let '(ok, lim') := Allow (limiter c) now in
    (ok, <[ip := mkClient lim' now]> clients)
  else (true, clients).

(** The limiter [clients[ip].limiter] the next request from [ip] uses. *)
Definition entry (cfg : LimiterConfig) (clients : clients_map) (ip : string) : Limiter :=
  match clients !! ip with
  | Some c => limiter c
  | None => NewLimiter (Rps cfg) (Burst cfg)
  end.

(** A sequence of requests [(ip, now)] handled one after the other under the
    mutex, with the limiter configuration [cfg]. *)
Fixpoint serve (cfg : LimiterConfig) (clients : clients_map)
    (reqs : list (string * Z)) : list bool * clients_map :=
  match reqs with
  | [] => ([], clients)
  | (ip, now) :: rest =>
      let '(ok, clients') := rateLimit cfg clients ip now in
      let '(oks, clients'') := serve cfg clients' rest in
      (ok :: oks, clients'')
  end.

(** One pass of the sweep goroutine at [now]:
    [if time.Since(client.lastSeen) > 3*time.Minute { delete(clients, ip) }]. *)
Definition idleThreshold : Z := 3 * Minute.

Definition sweep (now : Z) (clients : clients_map) : clients_map :=
  filter (fun '(_, c) => ~ (now - lastSeen c > idleThreshold)) clients.

(** The goroutine sleeps one minute before each pass: its k-th pass
    (from 0) runs at [start + (k+1) * time.Minute]. *)
Definition sweepTime (start : Z) (k : nat) : Z := start + (Z.of_nat k + 1) * Minute.

End Limiting.

(** ** [internal/config] and the three watchers of [main] *)
Module Reload.
Import Limiting.

(** [config.Config]: one value, [cfgDynamic], that all three [LoadConfig]
    calls of [main] decode into. *)
Record Config := mkConfig {
  LimiterRps : Q;
  LimiterBurst : Z;
  LimiterEnabled : bool;
  DBUsername : string;
  DBPassword : string;
  DBServer : string;
  DBPort : Z;
  DBName : string;
  DBSSLMode : string;
  DBPoolMaxConns : Z;
  DBPoolMaxConnIdleTime : Z;
  SMTPUsername : string;
  SMTPPassword : string;
  SMTPAuthAddress : string;
  SMTPServerAddress : string;
  LoadTime : Z
}.

(** The zero value [var cfgDynamic config.Config]. *)
Definition zeroConfig : Config :=
  mkConfig 0%Q 0 false "" "" "" 0 "" "" 0 0 "" "" "" "" 0.

(** The keys a file decodes to. [v.Unmarshal(cfg)] writes the fields whose
    keys are in the file and leaves the other fields of [cfg] as they are. *)
Record DynamicFile := mkDynamicFile {
  f_LimiterRps : Q; f_LimiterBurst : Z; f_LimiterEnabled : bool }.
Record DBFile := mkDBFile {
  f_DBUsername : string; f_DBPassword : string; f_DBServer : string; f_DBPort : Z;
  f_DBName : string; f_DBSSLMode : string; f_DBPoolMaxConns : Z;
  f_DBPoolMaxConnIdleTime : Z }.
Record SMTPFile := mkSMTPFile {
  f_SMTPUsername : string; f_SMTPPassword : string;
  f_SMTPAuthAddress : string; f_SMTPServerAddress : string }.

Inductive FileData :=
  | DynamicData (d : DynamicFile)
  | DBData (d : DBFile)
  | SMTPData (d : SMTPFile).

(** What [v.ReadInConfig()] then [v.Unmarshal(cfg)] give. *)
Inductive ReadResult :=
  | ReadErr (e : string)
  | DecodeErr (e : string)
  | Decoded (d : FileData).

Definition unmarshal (d : FileData) (c : Config) : Config :=
  match d with
  | DynamicData f =>
      mkConfig (f_LimiterRps f) (f_LimiterBurst f) (f_LimiterEnabled f)
        (DBUsername c) (DBPassword c) (DBServer c) (DBPort c) (DBName c)
        (DBSSLMode c) (DBPoolMaxConns c) (DBPoolMaxConnIdleTime c)
        (SMTPUsername c) (SMTPPassword c) (SMTPAuthAddress c)
        (SMTPServerAddress c) (LoadTime c)
  | DBData f =>
      mkConfig (LimiterRps c) (LimiterBurst c) (LimiterEnabled c)
        (f_DBUsername f) (f_DBPassword f) (f_DBServer f) (f_DBPort f)
        (f_DBName f) (f_DBSSLMode f) (f_DBPoolMaxConns f)
        (f_DBPoolMaxConnIdleTime f)
        (SMTPUsername c) (SMTPPassword c) (SMTPAuthAddress c)
        (SMTPServerAddress c) (LoadTime c)
  | SMTPData f =>
      mkConfig (LimiterRps c) (LimiterBurst c) (LimiterEnabled c)
        (DBUsername c) (DBPassword c) (DBServer c) (DBPort c) (DBName c)
        (DBSSLMode c) (DBPoolMaxConns c) (DBPoolMaxConnIdleTime c)
        (f_SMTPUsername f) (f_SMTPPassword f) (f_SMTPAuthAddress f)
        (f_SMTPServerAddress f) (LoadTime c)
  end.

Definition setLoadTime (t : Z) (c : Config) : Config :=
  mkConfig (LimiterRps c) (LimiterBurst c) (LimiterEnabled c)
    (DBUsername c) (DBPassword c) (DBServer c) (DBPort c) (DBName c)
    (DBSSLMode c) (DBPoolMaxConns c) (DBPoolMaxConnIdleTime c)
    (SMTPUsername c) (SMTPPassword c) (SMTPAuthAddress c)
    (SMTPServerAddress c) t.

(** [LoadConfig]: the error, if any, and the new value of [*cfg];
    [cfg.LoadTime = time.Now()] reads the instant [now] of the end of the
    load. (An [Unmarshal] error after a partial decode is not modelled:
    every caller exits on it.) *)
Definition LoadConfig (r : ReadResult) (cfg : Config) (now : Z) : option string * Config :=
  match r with
  | ReadErr e => (Some e, cfg)
  | DecodeErr e => (Some e, cfg)
  | Decoded d => (None, setLoadTime now (unmarshal d cfg))
  end.

(** The arguments of the [fmt.Sprintf] that builds [cfg.dbConnString]; the
    connection string is a function of them. *)
Record ConnParams := mkConnParams {
  cp_user : string; cp_password : string; cp_server : string; cp_port : Z;
  cp_name : string; cp_sslmode : string; cp_max_conns : Z; cp_idle_time : Z }.

Definition dbConnString_of (c : Config) : ConnParams :=
  mkConnParams (DBUsername c) (DBPassword c) (DBServer c) (DBPort c) (DBName c)
    (DBSSLMode c) (DBPoolMaxConns c) (DBPoolMaxConnIdleTime c).

Definition limiter_of (c : Config) : LimiterConfig :=
  mkLimiterConfig (LimiterRps c) (LimiterBurst c) (LimiterEnabled c).

(** [config.SMTPConfig], shared by pointer with the [EmailSender]. *)
Record SMTPConfig := mkSMTPConfig {
  Username : string; Password : string; AuthAddress : string; ServerAddress : string }.

Definition smtp_of (c : Config) : SMTPConfig :=
  mkSMTPConfig (SMTPUsername c) (SMTPPassword c) (SMTPAuthAddress c) (SMTPServerAddress c).

(** A [*pgxpool.Pool]: its identity (the allocation it is) and the
    connection parameters it was opened with. *)
Record Pool := mkPool { pool_id : nat; pool_conn : ConnParams }.

(** What the database does when [CreatePool] runs: [pgxpool.New] fails,
    or the pool is created and [p.Ping(ctx)] fails, or both succeed. *)
Inductive PoolEnv :=
  | NewFails (e : string)
  | PingFails (e : string)
  | PoolReady.

Inductive LogEntry :=
  | LogInfo (msg : string)
  | LogError (msg : string).

#[global] Instance LogEntry_eq_dec : EqDecision LogEntry.
Proof. solve_decision. Defined.

(** The state of the process: the fields of [cfg] the watchers write, the
    [poolWrapper] with the set of closed pools and the next allocation,
    the log, and the [clients] map of the [rateLimit] closure. *)
Record App := mkApp {
  cfgDynamic : Config;
  limiterCfg : LimiterConfig;
  dbConnString : ConnParams;
  smtp : SMTPConfig;
  pool : Pool;
  closedPools : list nat;
  nextPool : nat;
  logs : list LogEntry;
  clients : clients_map
}.

Inductive Proc :=
  | Running (a : App)
  | Exited (code : Z) (a : App).

Definition with_cfg (c : Config) (a : App) : App :=
  mkApp c (limiterCfg a) (dbConnString a) (smtp a) (pool a) (closedPools a)
    (nextPool a) (logs a) (clients a).
Definition with_limiter (l : LimiterConfig) (a : App) : App :=
  mkApp (cfgDynamic a) l (dbConnString a) (smtp a) (pool a) (closedPools a)
    (nextPool a) (logs a) (clients a).
Definition with_conn (cs : ConnParams) (a : App) : App :=
  mkApp (cfgDynamic a) (limiterCfg a) cs (smtp a) (pool a) (closedPools a)
    (nextPool a) (logs a) (clients a).
Definition with_smtp (sm : SMTPConfig) (a : App) : App :=
  mkApp (cfgDynamic a) (limiterCfg a) (dbConnString a) sm (pool a) (closedPools a)
    (nextPool a) (logs a) (clients a).
Definition log (e : LogEntry) (a : App) : App :=
  mkApp (cfgDynamic a) (limiterCfg a) (dbConnString a) (smtp a) (pool a)
    (closedPools a) (nextPool a) (logs a ++ [e]) (clients a).

(** [poolWrapper.Pool.Close()]. *)
Definition ClosePool (a : App) : App :=
  mkApp (cfgDynamic a) (limiterCfg a) (dbConnString a) (smtp a) (pool a)
    (pool_id (pool a) :: closedPools a) (nextPool a) (logs a) (clients a).

(** [PoolWrapper.CreatePool(connString)]: [pgxpool.New] allocates the
    candidate, a failed [Ping] closes it and returns the error, and only on
    success is [pw.Pool = p] assigned. *)
Definition CreatePool (cs : ConnParams) (env : PoolEnv) (a : App) : option string * App :=
  match env with
  | NewFails e => (Some e, a)
  | PingFails e =>
      (Some e, mkApp (cfgDynamic a) (limiterCfg a) (dbConnString a) (smtp a) (pool a)
                 (nextPool a :: closedPools a) (S (nextPool a)) (logs a) (clients a))
  | PoolReady =>
      (None, mkApp (cfgDynamic a) (limiterCfg a) (dbConnString a) (smtp a)
               (mkPool (nextPool a) cs) (closedPools a) (S (nextPool a)) (logs a)
               (clients a))
  end.

(** [logger.Error(err.Error()); os.Exit(1)]. *)
Definition fatal (e : string) (a : App) : Proc := Exited 1 (log (LogError e) a).

Inductive Source := Dynamic | DynamicDB | DynamicSMTP.

(** [time.Since(cfgDynamic.LoadTime) > time.Duration(100*time.Millisecond)]. *)
Definition debounceWindow : Z := 100 * Millisecond.

Definition passes (a : App) (now : Z) : bool :=
  debounceWindow <? now - LoadTime (cfgDynamic a).

(** The [OnConfigChange] callback of the watcher of source [s], run at
    [now]; the load ends (and stamps [LoadTime]) at [tl]; [r] is what the
    file read gives and [penv] what the database does if a pool is
    created. *)
Definition onConfigChange (s : Source) (a : App) (now tl : Z) (r : ReadResult)
    (penv : PoolEnv) : Proc :=
  if passes a now then
    let a := log (LogInfo "configuration change detected") a in
    match LoadConfig r (cfgDynamic a) tl with
    | (Some e, _) => fatal e a
    | (None, c) =>
        let a := with_cfg c a in
        match s with
        | Dynamic => Running (with_limiter (limiter_of c) a)
        | DynamicDB =>
            let a := ClosePool (with_conn (dbConnString_of c) a) in
            match CreatePool (dbConnString a) penv a with
            | (Some e, a) => fatal e a
            | (None, a) => Running a
            end
        | DynamicSMTP => Running (with_smtp (smtp_of c) a)
        end
    end
  else Running a.

(** The start of [main]: the three loads (ending at [t1], [t2], [t3]),
    then [cfg] is filled from [cfgDynamic] and the pool is created. *)
Definition startup (r1 r2 r3 : ReadResult) (t1 t2 t3 : Z) (penv : PoolEnv) : Proc :=
  let a0 := mkApp zeroConfig (limiter_of zeroConfig) (dbConnString_of zeroConfig)
              (smtp_of zeroConfig) (mkPool 0 (dbConnString_of zeroConfig)) [] 1 [] ∅ in
  match LoadConfig r1 (cfgDynamic a0) t1 with
  | (Some e, _) => fatal e a0
  | (None, c1) =>
    match LoadConfig r2 c1 t2 with
    | (Some e, _) => fatal e (with_cfg c1 a0)
    | (None, c2) =>
      match LoadConfig r3 c2 t3 with
      | (Some e, _) => fatal e (with_cfg c2 a0)
      | (None, c) =>
          let a := with_smtp (smtp_of c) (with_conn (dbConnString_of c)
                     (with_limiter (limiter_of c) (with_cfg c a0))) in
          match CreatePool (dbConnString a) penv a with
          | (Some e, a) => fatal e a
          | (None, a) => Running (log (LogInfo "database connection pool established") a)
          end
      end
    end
  end.

(** A change notification as the watcher of one source sees it: it
    arrives at [ev_at]; the load inside the callback takes [ev_load]; the
    rest of the callback after the [LoadTime] stamp (for the DB source:
    closing and recreating the pool) takes [ev_after]. *)
Record Event := mkEvent {
  ev_at : Z; ev_read : ReadResult; ev_load : Z; ev_pool : PoolEnv; ev_after : Z }.

(** Viper's [WatchConfig] loop calls the callback for one event after the
    other: an event is handled once it has arrived and the previous
    callback has returned ([clock]). *)
Fixpoint watch (s : Source) (p : Proc) (clock : Z) (evs : list Event) : Proc :=
  match evs, p with
  | [], _ => p
  | _, Exited _ _ => p
  | e :: rest, Running a =>
      let start := Z.max clock (ev_at e) in
      let finish := if passes a start then start + ev_load e + ev_after e else start in
      watch s (onConfigChange s a start (start + ev_load e) (ev_read e) (ev_pool e))
        finish rest
  end.

(** The number of reloads: [LoadConfig] is called right after each
    "configuration change detected" line. *)
Definition reloads (a : App) : nat :=
  length (filter (fun e => e = LogInfo "configuration change detected") (logs a)).

Definition proc_app (p : Proc) : App :=
  match p with Running a => a | Exited _ a => a end.

End Reload.

(** ** [recoverPanic] and the error helpers of [cmd/api/errors.go] *)
Module Http.

(** The two parts of [*http.Request] that [logError] reads: [r.Method] and
    [r.URL.RequestURI()]. *)
Record Request := mkRequest { Method : string; URI : string }.

(** A part of a response body: raw bytes, or the JSON encoding of the
    one-key [envelope] that [errorResponse] builds. *)
Inductive Chunk :=
  | Raw (b : string)
  | Envelope (key message : string).

(** The [http.ResponseWriter] of [net/http]: the header map, the status
    once the header has been written, and the body. After the header is
    written, [Header().Set] no longer changes what is sent and a second
    [WriteHeader] is ignored ("superfluous response.WriteHeader call");
    [Write] writes the header with status 200 if it was not written yet. *)
Record ResponseWriter := mkRW {
  header : list (string * string);
  written : option Z;
  body : list Chunk
}.

Definition SetHeader (k v : string) (w : ResponseWriter) : ResponseWriter :=
  match written w with
  | None => mkRW ((k, v) :: filter (fun kv => kv.1 <> k) (header w)) None (body w)
  | Some _ => w
  end.

Definition WriteHeader (code : Z) (w : ResponseWriter) : ResponseWriter :=
  match written w with
  | None => mkRW (header w) (Some code) (body w)
  | Some _ => w
  end.

Definition Write (c : Chunk) (w : ResponseWriter) : ResponseWriter :=
  mkRW (header w) (Some (default 200 (written w))) (body w ++ [c]).

(** [app.logger.Error(err.Error(), "method", method, "uri", uri)]. *)
Inductive HttpLog := ErrorWithRequest (msg method uri : string).

Inductive Outcome :=
  | Returned
  | Panicked (v : string).

(** A handler run on the request goroutine: what it does to the writer and
    the log, and whether it returns or panics (with the value as text, as
    [fmt.Errorf("%s", err)] renders it). *)
Abbreviation Handler :=
  (Request -> ResponseWriter -> list HttpLog -> ResponseWriter * list HttpLog * Outcome).

(** Modelled from the spec: [writeJSON] (the JSON envelope formatting
    helper, absent from src/): it sets the JSON content type, writes the
    status and then the encoded envelope, and returns no error for a
    string message. *)
Definition writeJSON (w : ResponseWriter) (status : Z) (key message : string) : ResponseWriter :=
  Write (Envelope key message)
    (WriteHeader status (SetHeader "Content-Type" "application/json" w)).

(** [logError]. *)
Definition logError (r : Request) (err : string) (l : list HttpLog) : list HttpLog :=
  l ++ [ErrorWithRequest err (Method r) (URI r)].

(** [errorResponse]: [envelope{"error": message}] through [writeJSON]. *)
Definition errorResponse (w : ResponseWriter) (status : Z) (message : string) : ResponseWriter :=
  writeJSON w status "error" message.

Definition serverErrorMessage : string :=
  "the server encountered a problem and could not process your request".

(** [serverErrorResponse]: log with the request, then a 500 response. *)
Definition serverErrorResponse (w : ResponseWriter) (r : Request) (err : string)
    (l : list HttpLog) : ResponseWriter * list HttpLog :=
  (errorResponse w 500 serverErrorMessage, logError r err l).

(** [recoverPanic(next)]: the deferred [recover()] turns a panic of [next]
    into [Connection: close] and [serverErrorResponse]; the handler then
    returns normally. *)
Definition recoverPanic (next : Handler) : Handler :=
  fun r w l =>
    match next r w l with
    | (w', l', Returned) => (w', l', Returned)
    | (w', l', Panicked v) =>
        let w1 := SetHeader "Connection" "close" w' in
        let '(w2, l2) := serverErrorResponse w1 r v l' in
        (w2, l2, Returned)
    end.

End Http.

(** ** The other middleware of [cmd/api/middleware.go]: [enableCORS],
    [authenticate], the [require*] chain, [metricsResponseWriter] and
    [metrics] *)
Module Middleware.
Import Http.

(** A request with its header map. [r.Header.Get(k)] gives the first value
    stored under [k] (keys are written in canonical form), or "" when
    there is none. *)
Record Req := mkReq { req : Request; rHeader : list (string * string) }.

Fixpoint headerGet (h : list (string * string)) (k : string) : string :=
  match h with
  | [] => ""
  | (k', v) :: h' => if String.eqb k' k then v else headerGet h' k
  end.

(** [w.Header().Add(k, v)]: appends a value under [k]; like [Set], it no
    longer changes the response once the header is written. *)
Definition AddHeader (k v : string) (w : ResponseWriter) : ResponseWriter :=
  match written w with
  | None => mkRW (header w ++ [(k, v)]) None (body w)
  | Some _ => w
  end.

Abbreviation RHandler :=
  (Req -> ResponseWriter -> list HttpLog -> ResponseWriter * list HttpLog * Outcome).

(** *** [enableCORS] *)

(** The [for _, o := range app.config.cors.trustedOrigins] loop: at the
    first trusted origin equal to [origin] it sets
    [Access-Control-Allow-Origin] and either answers a preflight request
    ([true]: the handler returns) or [break]s ([false]: [next] runs). *)
Fixpoint corsLoop (origin : string) (trustedOrigins : list string) (r : Req)
    (w : ResponseWriter) : ResponseWriter * bool :=
  match trustedOrigins with
  | [] => (w, false)
  | o :: rest =>
      if String.eqb origin o then
        let w := SetHeader "Access-Control-Allow-Origin" origin w in
        if String.eqb (Method (req r)) "OPTIONS" &&
           negb (String.eqb (headerGet (rHeader r) "Access-Control-Request-Method") "")
        then
          let w := SetHeader "Access-Control-Allow-Methods" "OPTIONS, PUT, PATCH, DELETE" w in
          let w := SetHeader "Access-Control-Allow-Headers" "Authorization, Content-Type" w in
          (WriteHeader 200 w, true)
        else (w, false)
      else corsLoop origin rest r w
  end.

Definition enableCORS (trustedOrigins : list string) (next : RHandler) : RHandler :=
  fun r w l =>
    let w := AddHeader "Vary" "Origin" w in
    let w := AddHeader "Vary" "Access-Control-Request-Method" w in
    let origin := headerGet (rHeader r) "Origin" in
    if negb (String.eqb origin "") then
      match corsLoop origin trustedOrigins r w with
      | (w, true) => (w, l, Returned)
      | (w, false) => next r w l
      end
    else next r w l.

(** *** [authenticate] *)

(** [data.password]: the plaintext (a nil pointer once read back from the
    database) and the bcrypt hash. *)
Record password := mkPassword { plaintext : option string; hash : list Byte.byte }.

(** [data.User]; [CreatedAt] as nanoseconds. *)
Record User := mkUser {
  ID : Z;
  CreatedAt : Z;
  Name : string;
  Email : string;
  Password : password;
  Activated : bool;
  Version : Z
}.

(** The zero [User{}]. *)
Definition zeroUser : User := mkUser 0 0 "" "" (mkPassword None []) false 0.

(** The user in the request context: the [data.AnonymousUser] pointer (to a
    zero [User]) or a user read from the database. [IsAnonymous] compares
    pointers, so only the former is anonymous. *)
Inductive UserCtx :=
  | AnonymousUser
  | UserOf (u : User).

Definition userOf (c : UserCtx) : User :=
  match c with AnonymousUser => zeroUser | UserOf u => u end.

Definition IsAnonymous (c : UserCtx) : bool :=
  match c with AnonymousUser => true | UserOf _ => false end.

(** A handler behind [authenticate]: [contextGetUser(r)] is its first
    argument. *)
Abbreviation UHandler :=
  (UserCtx -> Req -> ResponseWriter -> list HttpLog -> ResponseWriter * list HttpLog * Outcome).

(** [strings.Split(s, " ")]: the pieces between single spaces, an empty
    piece between two adjacent spaces, [[""]] for the empty string. *)
Definition space : Ascii.ascii := Ascii.Ascii false false false false false true false false.

Fixpoint splitSpace (s : string) : list string :=
  match s with
  | EmptyString => [EmptyString]
  | String c s' =>
      let parts := splitSpace s' in
      if Ascii.eqb c space then EmptyString :: parts
      else
        match parts with
        | p :: ps => String c p :: ps
        | [] => [String c EmptyString]
        end
  end.

(** The [validator.Validator] (its package is not part of src/) as
    [ValidateTokenPlaintext] uses it: [Check(ok, key, message)] records
    [message] under [key] when [ok] is false and [key] has no error yet;
    [Valid()] holds when no error was recorded. *)
Definition Validator := list (string * string).

Definition AddError (key message : string) (v : Validator) : Validator :=
  if existsb (fun kv => String.eqb kv.1 key) v then v else v ++ [(key, message)].

Definition Check (ok : bool) (key message : string) (v : Validator) : Validator :=
  if ok then v else AddError key message v.

Definition Valid (v : Validator) : bool :=
  match v with [] => true | _ :: _ => false end.

(** [data.ValidateTokenPlaintext]; [len] counts bytes. *)
Definition ValidateTokenPlaintext (v : Validator) (tokenPlaintext : string) : Validator :=
  let v := Check (negb (String.eqb tokenPlaintext "")) "token" "must be provided" v in
  Check (String.length tokenPlaintext =? 26)%nat "token" "must be 26 bytes long" v.

Definition ScopeAuthentication : string := "authentication".

(** What [app.models.User.GetForToken(scope, token)] returns. *)
Inductive TokenLookup :=
  | Found (u : User)
  | ErrRecordNotFound
  | LookupErr (e : string).

Definition invalidAuthenticationTokenResponse (w : ResponseWriter) : ResponseWriter :=
  errorResponse (SetHeader "WWW-Authenticate" "Bearer" w) 401
    "invalid or missing authentication token".

Definition authenticate (GetForToken : string -> string -> TokenLookup)
    (next : UHandler) : RHandler :=
  fun r w l =>
    let w := AddHeader "Vary" "Authorization" w in
    let authorizationHeader := headerGet (rHeader r) "Authorization" in
    if String.eqb authorizationHeader "" then next AnonymousUser r w l
    else
      match splitSpace authorizationHeader with
      | [part0; token] =>
          if String.eqb part0 "Bearer" then
            if Valid (ValidateTokenPlaintext [] token) then
              match GetForToken ScopeAuthentication token with
              | Found user => next (UserOf user) r w l
              | ErrRecordNotFound => (invalidAuthenticationTokenResponse w, l, Returned)
              | LookupErr e =>
                  let '(w, l) := serverErrorResponse w (req r) e l in (w, l, Returned)
              end
            else (invalidAuthenticationTokenResponse w, l, Returned)
          else (invalidAuthenticationTokenResponse w, l, Returned)
      | _ => (invalidAuthenticationTokenResponse w, l, Returned)
      end.

(** *** [requireAuthenticatedUser], [requireActivatedUser],
    [requirePermission] *)

Definition authenticationRequiredResponse (w : ResponseWriter) : ResponseWriter :=
  errorResponse w 401 "you must be authenticated to access this resource".

Definition inactiveAccountResponse (w : ResponseWriter) : ResponseWriter :=
  errorResponse w 403 "your user account must be activated to access this resource".

Definition notPermittedResponse (w : ResponseWriter) : ResponseWriter :=
  errorResponse w 403
    "your user account doesn't have the necessary permissions to access this resource".

Definition requireAuthenticatedUser (next : UHandler) : UHandler :=
  fun user r w l =>
    if IsAnonymous user then (authenticationRequiredResponse w, l, Returned)
    else next user r w l.

Definition requireActivatedUser (next : UHandler) : UHandler :=
  let fn : UHandler := fun user r w l =>
    if negb (Activated (userOf user)) then (inactiveAccountResponse w, l, Returned)
    else next user r w l in
  requireAuthenticatedUser fn.

(** [data.Permissions] and [Include] ([slices.Contains]). *)
Definition Permissions := list string.

Definition Include (p : Permissions) (code : string) : bool :=
  existsb (String.eqb code) p.

(** What [app.models.Permission.GetAllForUser(id)] returns. *)
Inductive PermLookup :=
  | PermsOK (p : Permissions)
  | PermsErr (e : string).

Definition requirePermission (GetAllForUser : Z -> PermLookup) (code : string)
    (next : UHandler) : UHandler :=
  let fn : UHandler := fun user r w l =>
    match GetAllForUser (ID (userOf user)) with
    | PermsErr e => let '(w, l) := serverErrorResponse w (req r) e l in (w, l, Returned)
    | PermsOK permissions =>
        if negb (Include permissions code) then (notPermittedResponse w, l, Returned)
        else next user r w l
    end in
  requireActivatedUser fn.

(** *** [metricsResponseWriter] and [metrics] *)

(** What a handler does with the writer it is given, in order. *)
Inductive WOp :=
  | OpSet (k v : string)
  | OpAdd (k v : string)
  | OpWriteHeader (code : Z)
  | OpWrite (c : Chunk).

Definition applyRW (op : WOp) (w : ResponseWriter) : ResponseWriter :=
  match op with
  | OpSet k v => SetHeader k v w
  | OpAdd k v => AddHeader k v w
  | OpWriteHeader c => WriteHeader c w
  | OpWrite c => Write c w
  end.

Definition runRW (ops : list WOp) (w : ResponseWriter) : ResponseWriter :=
  fold_left (fun w op => applyRW op w) ops w.

Record metricsResponseWriter := mkMRW {
  wrapped : ResponseWriter;
  statusCode : Z;
  headerWritten : bool
}.

Definition newMetricsResponseWriter (w : ResponseWriter) : metricsResponseWriter :=
  mkMRW w 200 false.

(** [Header()] is a pass-through: [Set] and [Add] act on the wrapped
    writer's header map. *)
Definition mrwHeader (f : ResponseWriter -> ResponseWriter) (m : metricsResponseWriter)
    : metricsResponseWriter :=
  mkMRW (f (wrapped m)) (statusCode m) (headerWritten m).

Definition mrwWriteHeader (code : Z) (m : metricsResponseWriter) : metricsResponseWriter :=
  let w := WriteHeader code (wrapped m) in
  if negb (headerWritten m) then mkMRW w code true
  else mkMRW w (statusCode m) (headerWritten m).

Definition mrwWrite (c : Chunk) (m : metricsResponseWriter) : metricsResponseWriter :=
  mkMRW (Write c (wrapped m)) (statusCode m) true.

Definition applyMRW (op : WOp) (m : metricsResponseWriter) : metricsResponseWriter :=
  match op with
  | OpSet k v => mrwHeader (SetHeader k v) m
  | OpAdd k v => mrwHeader (AddHeader k v) m
  | OpWriteHeader c => mrwWriteHeader c m
  | OpWrite c => mrwWrite c m
  end.

Definition runMRW (ops : list WOp) (m : metricsResponseWriter) : metricsResponseWriter :=
  fold_left (fun m op => applyMRW op m) ops m.

(** The four [expvar] variables of [metrics]. *)
Record Metrics := mkMetrics {
  total_requests_received : Z;
  total_responses_sent : Z;
  total_processing_time_us : Z;
  total_responses_sent_by_status : gmap string Z
}.

(** [strconv.Itoa]. *)
Definition Itoa (n : Z) : string := pretty n.

(** [expvar.Map.Add(key, delta)]: a missing key starts at 0. *)
Definition mapAdd (key : string) (delta : Z) (m : gmap string Z) : gmap string Z :=
  <[key := default 0 (m !! key) + delta]> m.

(** The handler returned by [metrics(next)] for one request: [next] does
    [ops] on the [metricsResponseWriter]; the request took [duration]
    microseconds. *)
Definition metrics (ops : list WOp) (duration : Z) (w : ResponseWriter) (m : Metrics)
    : ResponseWriter * Metrics :=
  let m := mkMetrics (total_requests_received m + 1) (total_responses_sent m)
             (total_processing_time_us m) (total_responses_sent_by_status m) in
  let mrw := runMRW ops (newMetricsResponseWriter w) in
  let m := mkMetrics (total_requests_received m) (total_responses_sent m + 1)
             (total_processing_time_us m)
             (mapAdd (Itoa (statusCode mrw)) 1 (total_responses_sent_by_status m)) in
  let m := mkMetrics (total_requests_received m) (total_responses_sent m)
             (total_processing_time_us m + duration) (total_responses_sent_by_status m) in
  (wrapped mrw, m).

(** A fresh [http.ResponseWriter] of a new request. *)
Definition freshRW : ResponseWriter := mkRW [] None [].

(** Requests [(ops, duration)] served one after the other; each gets a
    fresh writer, and the list holds what each client received. *)
Fixpoint serveMetrics (reqs : list (list WOp * Z)) (m : Metrics)
    : list ResponseWriter * Metrics :=
  match reqs with
  | [] => ([], m)
  | (ops, d) :: rest =>
      let '(w, m) := metrics ops d freshRW m in
      let '(ws, m) := serveMetrics rest m in
      (w :: ws, m)
  end.

End Middleware.

(** ** Invariants of the reloaded state *)
Module Invariants.
Import Rate Limiting Reload.

(** The kind of data the file of each watcher holds. *)
Definition source_reads (s : Source) (r : ReadResult) : bool :=
  match s, r with
  | Dynamic, Decoded (DynamicData _) => true
  | DynamicDB, Decoded (DBData _) => true
  | DynamicSMTP, Decoded (SMTPData _) => true
  | _, Decoded _ => false
  | _, _ => true
  end.

(** The values derived from [cfgDynamic] agree with it, the pool in use
    was opened with the current connection string and is not closed, and
    pool identities are allocated once and closed at most once. *)
Definition Consistent (a : App) : Prop :=
  limiterCfg a = limiter_of (cfgDynamic a) /\
  dbConnString a = dbConnString_of (cfgDynamic a) /\
  smtp a = smtp_of (cfgDynamic a) /\
  pool_conn (pool a) = dbConnString a /\
  (pool_id (pool a) < nextPool a)%nat /\
  (pool_id (pool a) ∉ closedPools a) /\
  Forall (fun i => i < nextPool a)%nat (closedPools a) /\
  NoDup (closedPools a).

End Invariants.

(** ** Concrete inputs *)
Module Samples.
Import Limiting Reload Http.

Definition dynamic_env : ReadResult :=
  Decoded (DynamicData (mkDynamicFile 2 4 true)).
Definition db_file : DBFile :=
  mkDBFile "greenlight" "pa55word" "localhost" 5432 "greenlight" "disable" 25
    (15 * Minute).
Definition db_env : ReadResult := Decoded (DBData db_file).
Definition smtp_env : ReadResult :=
  Decoded (SMTPData (mkSMTPFile "user" "secret" "smtp.example.com"
                       "smtp.example.com:587")).

(** The process after a successful start at instants 0, 1 and 2 ns. *)
Definition started : Proc := startup dynamic_env db_env smtp_env 0 1 2 PoolReady.
Definition sample_app : App := proc_app started.


(** Two write notifications 50 ms apart, one second after the start; the
    part of each callback after the load takes [pool_time]. *)
Definition write_events (r : ReadResult) (pool_time : Z) : list Event :=
  [mkEvent Second r Millisecond PoolReady pool_time;
   mkEvent (Second + 50 * Millisecond) r Millisecond PoolReady pool_time].

(** A handler that starts a 200 response and then panics. *)
Definition panics_after_write : Handler :=
  fun _ w l => (WriteHeader 200 w, l, Panicked "runtime error: index out of range").

End Samples.

(* ================================================================== *)
(** * Proofs *)
(* ================================================================== *)

Module LimiterFacts.
Import Rate Limiting.




(** Requests from one identity only see that identity's limiter. *)
Lemma serve_one_identity cfg (m : clients_map) ip ts :
  Enabled cfg = true ->
  fst (serve cfg m (map (pair ip) ts)) = fst (allow_seq (entry cfg m ip) ts).
Proof.
  intros He. revert m. induction ts as [|t ts IH]; intros m; [reflexivity|].
  cbn [map serve allow_seq]. unfold rateLimit at 1. rewrite He.
  assert (Hc : limiter (match m !! ip with Some c => c
                        | None => mkClient (NewLimiter (Rps cfg) (Burst cfg)) 0 end)
               = entry cfg m ip) by (unfold entry; destruct (m !! ip); reflexivity).
  rewrite Hc. destruct (Allow (entry cfg m ip) t) as [ok l'] eqn:HA.
  specialize (IH (<[ip := mkClient l' t]> m)).
  unfold entry at 1 in IH. rewrite lookup_insert_eq in IH. simpl in IH.
  destruct (serve cfg (<[ip:=mkClient l' t]> m) (map (pair ip) ts)) as [o1 x1] eqn:E1.
  destruct (allow_seq l' ts) as [o2 x2] eqn:E2.
  simpl in *. congruence.
Qed.


Lemma Qltb_spec a b : Qltb a b = true <-> Qlt a b.
Proof.
  unfold Qltb. rewrite negb_true_iff. split; intros H.
  - apply Qnot_le_lt. intros Hc. apply Qle_bool_iff in Hc. congruence.
  - apply not_true_iff_false. rewrite Qle_bool_iff. apply Qlt_not_le, H.
Qed.



Lemma Second_Q : inject_Z Second = (1000000000 # 1)%Q.
Proof. reflexivity. Qed.


Lemma tokensFromDuration_0 r : Qeq (tokensFromDuration r 0) 0.
Proof.
  unfold tokensFromDuration. destruct (Qle_bool r 0); [reflexivity|].
  unfold Qeq. simpl. lia.
Qed.

Lemma tokensFromDuration_nonneg r d : 0 <= d -> Qle 0 (tokensFromDuration r d).
Proof.
  intros Hd. unfold tokensFromDuration.
  destruct (Qle_bool r 0) eqn:E; [apply Qle_refl|].
  assert (Hr : Qlt 0 r).
  { apply Qnot_le_lt. intros Hc. apply Qle_bool_iff in Hc. congruence. }
  assert (HdQ : Qle 0 (inject_Z d)) by (unfold Qle; simpl; lia).
  rewrite Second_Q. unfold Qdiv.
  apply Qmult_le_0_compat; [apply Qmult_le_0_compat|apply Qlt_le_weak, Hr];
    [exact HdQ|unfold Qle; simpl; lia].
Qed.


(** Under a limit of at most [1e9] tokens/s (or a limit [<= 0]), a
    shortfall of at least one token always has a positive wait. *)
Lemma wait_positive r q :
  Qle r (inject_Z Second) -> Qle 1 q -> 1 <= durationFromTokens r q.
Proof.
  intros HS Hq. unfold durationFromTokens.
  destruct (Qle_bool r 0) eqn:E0; [unfold InfDuration, maxDuration; lia|].
  assert (Hr : Qlt 0 r).
  { apply Qnot_le_lt. intros Hc. apply Qle_bool_iff in Hc. congruence. }
  assert (Hr0 : ~ Qeq r 0) by (intros Hc; rewrite Hc in Hr; exact (Qlt_irrefl 0 Hr)).
  set (D := (q / r * inject_Z Second)%Q).
  assert (HD : Qeq (r * D) (q * inject_Z Second)) by (unfold D; field; exact Hr0).
  clearbody D.
  rewrite Second_Q in HD, HS.
  destruct (Qltb (inject_Z maxDuration) D); [unfold InfDuration, maxDuration; lia|].
  assert (HD1 : Qle 1 D) by nra.
  unfold Qtrunc.
  replace (Qle_bool 0 D) with true
    by (symmetry; apply Qle_bool_iff; eapply Qle_trans; [|exact HD1]; discriminate).
  apply (Qfloor_resp_le 1 D) in HD1. exact HD1.
Qed.



(** [Allow] when [advance] gives a whole number [k <= burst] of tokens and
    the limit is at most [1e9] tokens/s: it admits iff [k >= 1]. *)
Lemma Allow_integral lim t k :
  Qeq (advance lim t) (inject_Z k) -> k <= burst lim ->
  Qle (limit lim) (inject_Z Second) ->
  Allow lim t =
    (if 1 <=? k
     then (true, mkLimiter (limit lim) (burst lim) (advance lim t - 1)%Q (Some t))
     else (false, lim)).
Proof.
  intros HA Hk HS. unfold Allow, reserveN. cbv zeta. change (inject_Z 1) with 1%Q.
  destruct (Z.leb_spec 1 k) as [H1|H1].
  - replace (Qltb (advance lim t - 1) 0) with false.
    + replace (1 <=? burst lim) with true by (symmetry; apply Z.leb_le; lia).
      reflexivity.
    + symmetry. apply not_true_iff_false. rewrite Qltb_spec.
      assert (Hk1 : Qle 1 (inject_Z k)) by (unfold Qle; simpl; lia).
      lra.
  - assert (Hk1 : Qle (inject_Z k) 0) by (unfold Qle; simpl; lia).
    replace (Qltb (advance lim t - 1) 0) with true by (symmetry; apply Qltb_spec; lra).
    pose proof (wait_positive (limit lim) (- (advance lim t - 1)) HS ltac:(lra)) as Hw.
    replace (durationFromTokens (limit lim) (- (advance lim t - 1)) <=? 0) with false
      by (symmetry; apply Z.leb_gt; lia).
    rewrite andb_false_r. reflexivity.
Qed.

(** A fresh limiter sees a full bucket: [tokens = burst], and the time
    since the zero [last] only adds to it before the cap. *)
Lemma advance_new r b t : Qeq (advance (NewLimiter r b) t) (inject_Z b).
Proof.
  unfold advance, NewLimiter. simpl.
  pose proof (tokensFromDuration_nonneg r maxDuration ltac:(unfold maxDuration; lia)) as H.
  destruct (Qltb (inject_Z b) (inject_Z b + tokensFromDuration r maxDuration)) eqn:E;
    [reflexivity|].
  apply Qle_antisym; [|lra].
  apply Qnot_lt_le. intros Hc. apply Qltb_spec in Hc. congruence.
Qed.

(** At the instant of the last refill, [advance] is the count itself. *)
Lemma advance_same_instant lim t :
  last lim = Some t -> Qle (tokens lim) (inject_Z (burst lim)) ->
  Qeq (advance lim t) (tokens lim).
Proof.
  intros Hl Hb. unfold advance. rewrite Hl, Z.ltb_irrefl, Z.sub_diag.
  pose proof (tokensFromDuration_0 (limit lim)) as H0.
  replace (Qltb (inject_Z (burst lim)) (tokens lim + tokensFromDuration (limit lim) 0))
    with false.
  - rewrite H0. apply Qplus_0_r.
  - symmetry. apply not_true_iff_false. rewrite Qltb_spec. lra.
Qed.

End LimiterFacts.

Module LimiterClaims.
Import Rate Limiting LimiterFacts.



(** C8: idle sweep. A pass of the sweep at [now] deletes exactly the
    entries whose [lastSeen] is more than three minutes before [now] (so an
    entry last seen four minutes ago is gone), keeps the others unchanged,
    adds nothing, and successive passes are one minute apart. *)
Theorem sweep_evicts_idle (now : Z) (m : clients_map) (ip : string) :
  (forall c, m !! ip = Some c -> now - lastSeen c > idleThreshold ->
     sweep now m !! ip = None) /\
  (forall c, m !! ip = Some c -> now - lastSeen c <= idleThreshold ->
     sweep now m !! ip = Some c) /\
  (forall c, sweep now m !! ip = Some c -> m !! ip = Some c) /\
  (forall c, m !! ip = Some c -> lastSeen c = now - 4 * Minute ->
     sweep now m !! ip = None) /\
  (forall start k, sweepTime start (S k) - sweepTime start k = Minute).
Proof.
  unfold sweep. repeat split.
  - intros c Hc Hold. apply map_lookup_filter_None. right.
    intros x Hx. rewrite Hc in Hx. injection Hx as <-. simpl. tauto.
  - intros c Hc Hnew. apply map_lookup_filter_Some. split; [exact Hc|].
    simpl. unfold idleThreshold, Minute, Second, Millisecond in *. lia.
  - intros c Hc. apply map_lookup_filter_Some in Hc. tauto.
  - intros c Hc H4. apply map_lookup_filter_None. right.
    intros x Hx. rewrite Hc in Hx. injection Hx as <-. simpl.
    unfold idleThreshold. rewrite H4. unfold Minute, Second, Millisecond. lia.
  - intros start k. unfold sweepTime. lia.
Qed.

End LimiterClaims.

Module ReloadClaims.
Import Rate Limiting Reload Samples LimiterFacts.

Lemma passes_false a now :
  now - LoadTime (cfgDynamic a) <= debounceWindow -> passes a now = false.
Proof. intros H. unfold passes. apply Z.ltb_ge. exact H. Qed.

(** A callback that got past the debounce check and kept the process
    running has loaded its file successfully, and stamped [LoadTime]. *)
Lemma onConfigChange_running s a now tl r penv a1 :
  passes a now = true ->
  onConfigChange s a now tl r penv = Running a1 ->
  exists d, r = Decoded d /\ cfgDynamic a1 = setLoadTime tl (unmarshal d (cfgDynamic a)).
Proof.
  intros Hp Hr. unfold onConfigChange in Hr. rewrite Hp in Hr.
  destruct r as [e|e|d]; simpl in Hr; try discriminate.
  exists d. split; [reflexivity|].
  destruct s; simpl in Hr.
  - injection Hr as <-. reflexivity.
  - destruct penv; simpl in Hr; try discriminate. injection Hr as <-. reflexivity.
  - injection Hr as <-. reflexivity.
Qed.

(** C1 (as the code does it): when the new DB parameters fail the
    connectivity probe, the candidate pool is closed and not installed, but
    the active pool was closed before the probe; the wrapper still holds
    that closed pool, the error is logged and the process exits with
    status 1. *)
Theorem db_probe_failure_exits (a : App) (now tl : Z) (d : DBFile) (e : string) :
  passes a now = true ->
  exists a',
    onConfigChange DynamicDB a now tl (Decoded (DBData d)) (PingFails e) = Exited 1 a' /\
    pool a' = pool a /\
    In (pool_id (pool a)) (closedPools a') /\
    In (nextPool a) (closedPools a') /\
    logs a' = logs a ++ [LogInfo "configuration change detected"; LogError e].
Proof.
  intros Hp. unfold onConfigChange. rewrite Hp. simpl.
  eexists. split; [reflexivity|]. simpl.
  split; [reflexivity|]. split; [right; left; reflexivity|].
  split; [left; reflexivity|]. rewrite <- app_assoc. reflexivity.
Qed.

Lemma db_probe_failure_exits_witness :
  passes sample_app Second = true /\
  exists a',
    onConfigChange DynamicDB sample_app Second (Second + 1) db_env
      (PingFails "connection refused") = Exited 1 a' /\
    pool a' = pool sample_app /\
    In (pool_id (pool sample_app)) (closedPools a') /\
    In (nextPool sample_app) (closedPools a') /\
    logs a' = logs sample_app ++ [LogInfo "configuration change detected";
                                 LogError "connection refused"].
Proof.
  split; [vm_compute; reflexivity|].
  apply (db_probe_failure_exits sample_app Second (Second + 1) db_file
           "connection refused").
  vm_compute. reflexivity.
Defined.

(** C1 fails: a failed probe on a DB-secret reload does not keep the
    process running, and the previously active pool is closed. *)
Lemma db_probe_failure_counterexample :
  (forall a', onConfigChange DynamicDB sample_app Second (Second + 1) db_env
                (PingFails "connection refused") <> Running a') /\
  In (pool_id (pool sample_app))
    (closedPools (proc_app (onConfigChange DynamicDB sample_app Second (Second + 1)
                              db_env (PingFails "connection refused")))).
Proof.
  split.
  - intros a'. vm_compute. discriminate.
  - vm_compute. right. left. reflexivity.
Qed.

(** C2 (as the code does it): a load failure is fatal at startup and also
    at runtime: a callback that passes the debounce check and whose load
    fails logs the error and exits with status 1, whatever the source; at
    startup the first failing load logs its error, the only line of the
    log, and the process exits with status 1. *)
Theorem load_failure_fatal :
  (forall s a now tl r penv e,
     passes a now = true -> (r = ReadErr e \/ r = DecodeErr e) ->
     onConfigChange s a now tl r penv
       = Exited 1 (log (LogError e) (log (LogInfo "configuration change detected") a))) /\
  (forall r1 r2 r3 t1 t2 t3 penv e,
     (r1 = ReadErr e \/ r1 = DecodeErr e \/ r2 = ReadErr e \/ r2 = DecodeErr e \/
      r3 = ReadErr e \/ r3 = DecodeErr e) ->
     exists a e', startup r1 r2 r3 t1 t2 t3 penv = Exited 1 a /\
       logs a = [LogError e'] /\
       (r1 = ReadErr e' \/ r1 = DecodeErr e' \/ r2 = ReadErr e' \/ r2 = DecodeErr e' \/
        r3 = ReadErr e' \/ r3 = DecodeErr e')).
Proof.
  split.
  - intros s a now tl r penv e Hp Hr. unfold onConfigChange. rewrite Hp.
    destruct Hr as [-> | ->]; reflexivity.
  - intros r1 r2 r3 t1 t2 t3 penv e Hr. unfold startup.
    destruct r1 as [e1|e1|d1]; simpl;
      [do 2 eexists; split; [reflexivity|]; split; [reflexivity|]; tauto..|].
    destruct r2 as [e2|e2|d2]; simpl;
      [do 2 eexists; split; [reflexivity|]; split; [reflexivity|]; tauto..|].
    destruct r3 as [e3|e3|d3]; simpl;
      [do 2 eexists; split; [reflexivity|]; split; [reflexivity|]; tauto..|].
    exfalso. repeat destruct Hr as [Hr|Hr]; discriminate.
Qed.

(** C2 fails: a runtime read error on [dynamic.env] ends the process. *)
Lemma load_failure_counterexample :
  onConfigChange Dynamic sample_app Second (Second + 1) (ReadErr "open dynamic.env")
    PoolReady
  = Exited 1 (log (LogError "open dynamic.env")
                (log (LogInfo "configuration change detected") sample_app)).
Proof. vm_compute. reflexivity. Qed.

End ReloadClaims.

Module LiveClaims.
Import Rate Limiting Reload Samples LimiterFacts ReloadClaims.



(** C5: with the enabled flag false, every call admits and leaves the
    registry untouched, for every identity and whatever its bucket holds;
    a [dynamic.env] reload with [LIMITER_ENABLED=false] sets the flag the
    middleware reads, after which every sequence of requests is admitted
    in full; the other two watchers never touch the flag. *)
Theorem limiter_disabled_admits_all :
  (forall cfg (m : clients_map) ip now,
     Enabled cfg = false -> rateLimit cfg m ip now = (true, m)) /\
  (forall cfg (m : clients_map) reqs,
     Enabled cfg = false -> serve cfg m reqs = (repeat true (length reqs), m)) /\
  (forall a now tl rps b penv,
     passes a now = true ->
     exists a', onConfigChange Dynamic a now tl
                  (Decoded (DynamicData (mkDynamicFile rps b false))) penv = Running a' /\
       Enabled (limiterCfg a') = false /\
       (forall reqs, serve (limiterCfg a') (clients a') reqs
                     = (repeat true (length reqs), clients a'))) /\
  (forall s a now tl r penv a',
     s <> Dynamic -> onConfigChange s a now tl r penv = Running a' ->
     limiterCfg a' = limiterCfg a).
Proof.
  assert (Hone : forall cfg (m : clients_map) ip now,
            Enabled cfg = false -> rateLimit cfg m ip now = (true, m)).
  { intros cfg m ip now He. unfold rateLimit. rewrite He. reflexivity. }
  assert (Hall : forall cfg (m : clients_map) reqs,
            Enabled cfg = false -> serve cfg m reqs = (repeat true (length reqs), m)).
  { intros cfg m reqs He. induction reqs as [|[ip now] rest IH]; [reflexivity|].
    simpl. rewrite Hone by exact He. rewrite IH. reflexivity. }
  split; [exact Hone|]. split; [exact Hall|]. split.
  - intros a now tl rps b penv Hp. unfold onConfigChange. rewrite Hp.
    eexists. split; [reflexivity|]. split; [reflexivity|].
    intros reqs. apply Hall. reflexivity.
  - intros s a now tl r penv a' Hs Hr. unfold onConfigChange in Hr.
    destruct (passes a now); [|injection Hr as <-; reflexivity].
    destruct r as [e|e|d]; simpl in Hr; try discriminate.
    destruct s; [congruence| |].
    + destruct penv; simpl in Hr; try discriminate. injection Hr as <-. reflexivity.
    + injection Hr as <-. reflexivity.
Qed.

(** C6 (as the code does it): reapplying an unchanged [dynamic.env] or
    [dynamic_smtp_secret.env] leaves the limiter parameters, the mail
    credentials and the pool as they were; reapplying an unchanged
    [dynamic_db_secret.env] keeps the connection parameters but closes the
    active pool and installs a new pool handle. *)
Theorem reload_unchanged_snapshot :
  (forall a now tl d penv,
     passes a now = true ->
     mkLimiterConfig (f_LimiterRps d) (f_LimiterBurst d) (f_LimiterEnabled d) = limiterCfg a ->
     exists a', onConfigChange Dynamic a now tl (Decoded (DynamicData d)) penv = Running a' /\
       limiterCfg a' = limiterCfg a /\ smtp a' = smtp a /\ pool a' = pool a) /\
  (forall a now tl d penv,
     passes a now = true ->
     mkSMTPConfig (f_SMTPUsername d) (f_SMTPPassword d) (f_SMTPAuthAddress d)
       (f_SMTPServerAddress d) = smtp a ->
     exists a', onConfigChange DynamicSMTP a now tl (Decoded (SMTPData d)) penv = Running a' /\
       limiterCfg a' = limiterCfg a /\ smtp a' = smtp a /\ pool a' = pool a) /\
  (forall a now tl d,
     passes a now = true ->
     (pool_id (pool a) < nextPool a)%nat ->
     mkConnParams (f_DBUsername d) (f_DBPassword d) (f_DBServer d) (f_DBPort d)
       (f_DBName d) (f_DBSSLMode d) (f_DBPoolMaxConns d) (f_DBPoolMaxConnIdleTime d)
       = dbConnString a ->
     exists a', onConfigChange DynamicDB a now tl (Decoded (DBData d)) PoolReady = Running a' /\
       dbConnString a' = dbConnString a /\ pool a' <> pool a /\
       In (pool_id (pool a)) (closedPools a')).
Proof.
  split; [|split].
  - intros a now tl d penv Hp Hd. unfold onConfigChange. rewrite Hp.
    eexists. split; [reflexivity|]. simpl. unfold limiter_of. simpl.
    rewrite Hd. repeat split.
  - intros a now tl d penv Hp Hd. unfold onConfigChange. rewrite Hp.
    eexists. split; [reflexivity|]. simpl. unfold smtp_of. simpl.
    rewrite Hd. repeat split.
  - intros a now tl d Hp Hlt Hd. unfold onConfigChange. rewrite Hp.
    eexists. split; [reflexivity|]. simpl. unfold dbConnString_of. simpl.
    rewrite Hd. split; [reflexivity|]. split.
    + intros Heq. rewrite <- Heq in Hlt. simpl in Hlt. lia.
    + left. reflexivity.
Qed.

Lemma reload_unchanged_snapshot_witness :
  passes sample_app Second = true /\
  (pool_id (pool sample_app) < nextPool sample_app)%nat /\
  exists a', onConfigChange DynamicDB sample_app Second (Second + 1) db_env PoolReady
               = Running a' /\
    dbConnString a' = dbConnString sample_app /\ pool a' <> pool sample_app /\
    In (pool_id (pool sample_app)) (closedPools a').
Proof.
  split; [vm_compute; reflexivity|]. split; [vm_compute; lia|].
  apply reload_unchanged_snapshot; [vm_compute; reflexivity | vm_compute; lia |
                                    vm_compute; reflexivity].
Defined.

(** C6 fails: reapplying the very DB secret the process started with
    replaces the pool handle (and closes the one in use). *)
Lemma reload_unchanged_snapshot_counterexample :
  dbConnString_of (setLoadTime 0 (unmarshal (DBData db_file) zeroConfig))
    = dbConnString sample_app /\
  pool (proc_app (onConfigChange DynamicDB sample_app Second (Second + 1) db_env PoolReady))
    <> pool sample_app.
Proof. split; [vm_compute; reflexivity | vm_compute; discriminate]. Qed.

End LiveClaims.

Module DebounceClaims.
Import Limiting Reload Samples ReloadClaims.

(** C7, at the failing input: two write notifications 50 ms apart, the
    first one a second after the last load. On [dynamic.env], where the
    callback ends right after the load, they give one reload. On
    [dynamic_db_secret.env], when closing and recreating the pool takes
    200 ms after [LoadTime] is stamped, the second notification is handled
    200 ms after that stamp, passes the check, and reloads (and recreates
    the pool) a second time. *)
Theorem debounce_db_slow_pool_reloads_twice :
  reloads (proc_app (watch Dynamic started 0 (write_events dynamic_env 0))) = 1%nat /\
  reloads (proc_app (watch DynamicDB started 0 (write_events db_env (200 * Millisecond))))
    = 2%nat.
Proof. split; vm_compute; reflexivity. Qed.

(** C10: every successful load, whatever its source, stamps the single
    [cfgDynamic.LoadTime]; a notification for any source [s'] (in
    particular one different from [s]) handled within 100 ms of that stamp
    is dropped: no reload, no log line, nothing changes. *)
Theorem shared_load_time_suppresses (s s' : Source) (a a1 : App) (now tl : Z)
    (r : ReadResult) (penv : PoolEnv) :
  passes a now = true ->
  onConfigChange s a now tl r penv = Running a1 ->
  LoadTime (cfgDynamic a1) = tl /\
  (forall now' tl' r' penv', now' - tl <= debounceWindow ->
     onConfigChange s' a1 now' tl' r' penv' = Running a1).
Proof.
  intros Hp Hr.
  destruct (onConfigChange_running s a now tl r penv a1 Hp Hr) as [d [_ Hc]].
  assert (Ht : LoadTime (cfgDynamic a1) = tl) by (rewrite Hc; reflexivity).
  split; [exact Ht|].
  intros now' tl' r' penv' Hw. unfold onConfigChange.
  rewrite passes_false by (rewrite Ht; exact Hw). reflexivity.
Qed.

Lemma shared_load_time_suppresses_witness :
  passes sample_app Second = true /\
  onConfigChange DynamicSMTP sample_app Second (Second + 1) smtp_env PoolReady
    = Running (proc_app (onConfigChange DynamicSMTP sample_app Second (Second + 1)
                           smtp_env PoolReady)) /\
  onConfigChange Dynamic
    (proc_app (onConfigChange DynamicSMTP sample_app Second (Second + 1) smtp_env PoolReady))
    (Second + 50 * Millisecond) (Second + 51 * Millisecond) dynamic_env PoolReady
  = Running (proc_app (onConfigChange DynamicSMTP sample_app Second (Second + 1)
                         smtp_env PoolReady)).
Proof.
  assert (Hp : passes sample_app Second = true) by (vm_compute; reflexivity).
  assert (Hr : onConfigChange DynamicSMTP sample_app Second (Second + 1) smtp_env PoolReady
    = Running (proc_app (onConfigChange DynamicSMTP sample_app Second (Second + 1)
                           smtp_env PoolReady))) by (vm_compute; reflexivity).
  split; [exact Hp|]. split; [exact Hr|].
  apply (proj2 (shared_load_time_suppresses DynamicSMTP Dynamic sample_app _ Second
                  (Second + 1) smtp_env PoolReady Hp Hr)).
  vm_compute. discriminate.
Defined.

End DebounceClaims.

Module PanicClaims.
Import Http Samples.

(** C9 (as the code does it): whatever the handler wrapped by
    [recoverPanic] does, the wrapped handler returns normally. When the
    handler panics, the panic value is logged with the request's method
    and URI, and the generic 500 error envelope is written. The caller gets
    status 500 with [Connection: close] if the handler had not written its
    response header before panicking; otherwise the status already sent
    stands and the envelope is appended to the body. *)
Theorem recoverPanic_catches (next : Handler) (r : Request) (w : ResponseWriter)
    (l : list HttpLog) :
  (exists w' l', recoverPanic next r w l = (w', l', Returned)) /\
  (forall w0 l0 v, next r w l = (w0, l0, Panicked v) ->
     snd (fst (recoverPanic next r w l)) = l0 ++ [ErrorWithRequest v (Method r) (URI r)] /\
     last (body (fst (fst (recoverPanic next r w l)))) = Some (Envelope "error" serverErrorMessage) /\
     (written w0 = None ->
        written (fst (fst (recoverPanic next r w l))) = Some 500 /\
        In ("Connection", "close") (header (fst (fst (recoverPanic next r w l))))) /\
     (forall c, written w0 = Some c ->
        written (fst (fst (recoverPanic next r w l))) = Some c)).
Proof.
  split.
  - unfold recoverPanic. destruct (next r w l) as [[w' l'] [|v]]; eauto.
  - intros w0 l0 v Hn. unfold recoverPanic. rewrite Hn. simpl.
    unfold errorResponse, writeJSON, Write, WriteHeader, SetHeader, logError.
    destruct (written w0) as [c|] eqn:Hw; simpl.
    + rewrite ?Hw; simpl; rewrite ?Hw; simpl.
      split; [reflexivity|]. split; [apply last_snoc|].
      split; [discriminate|]. intros c' Hc. injection Hc as <-. reflexivity.
    + split; [reflexivity|]. split; [apply last_snoc|].
      split; [|discriminate]. intros _. split; [reflexivity|].
      right. left. reflexivity.
Qed.

(** C9 fails: after such a handler the caller gets status 200, not the
    server-error status 500. *)
Lemma recoverPanic_after_write_counterexample :
  written (fst (fst (recoverPanic panics_after_write (mkRequest "GET" "/v1/movies/1")
                       (mkRW [] None []) []))) = Some 200.
Proof. vm_compute. reflexivity. Qed.

End PanicClaims.

Module LimiterExtras.
Import Rate Limiting LimiterFacts.

(** [n] requests at one instant [t] on a limiter that sees a whole number
    [k <= burst] of tokens there, under a limit of at most [1e9]
    tokens/s: the first [k] are admitted, the others rejected. *)
Lemma allow_seq_same_instant n lim t (k : Z) :
  Qle (limit lim) (inject_Z Second) -> k <= burst lim ->
  Qeq (advance lim t) (inject_Z k) ->
  fst (allow_seq lim (repeat t n))
    = repeat true (Nat.min n (Z.to_nat k)) ++ repeat false (n - Z.to_nat k).
Proof.
  revert lim k. induction n as [|n IH]; intros lim k HS Hk HA; [reflexivity|].
  cbn [repeat allow_seq]. rewrite (Allow_integral lim t k HA Hk HS).
  destruct (Z.leb_spec 1 k) as [H1|H1].
  - set (lim1 := mkLimiter (limit lim) (burst lim) (advance lim t - 1)%Q (Some t)).
    assert (HA1 : Qeq (advance lim1 t) (inject_Z (k - 1))).
    { rewrite advance_same_instant; [| reflexivity |].
      - simpl. rewrite HA. unfold Qeq; simpl. lia.
      - simpl. rewrite HA. unfold Qle; simpl. lia. }
    specialize (IH lim1 (k - 1) HS ltac:(simpl; lia) HA1).
    destruct (allow_seq lim1 (repeat t n)) as [oks x]. simpl in *. rewrite IH.
    replace (Z.to_nat k) with (S (Z.to_nat (k - 1))) by lia. reflexivity.
  - specialize (IH lim k HS Hk HA).
    destruct (allow_seq lim (repeat t n)) as [oks x]. simpl in *. rewrite IH.
    replace (Z.to_nat k) with 0%nat by lia.
    rewrite Nat.min_0_r, !Nat.sub_0_r. reflexivity.
Qed.

(** X3: a burst from an identity with no entry (a new one, or one the
    sweep evicted). Under a rate of at most [1e9] tokens/s, of [n]
    simultaneous requests the first [min n burst] are admitted and the
    rest rejected (all of them when [burst <= 0]). *)
Theorem fresh_identity_burst (cfg : LimiterConfig) (m : clients_map)
    (ip : string) (t : Z) (n : nat) :
  Enabled cfg = true -> Qle (Rps cfg) (inject_Z Second) -> m !! ip = None ->
  fst (serve cfg m (map (pair ip) (repeat t n)))
    = repeat true (Nat.min n (Z.to_nat (Burst cfg)))
      ++ repeat false (n - Z.to_nat (Burst cfg)).
Proof.
  intros He HS Hm. rewrite serve_one_identity by exact He.
  unfold entry. rewrite Hm.
  apply allow_seq_same_instant; [exact HS|simpl; lia|apply advance_new].
Qed.

Lemma fresh_identity_burst_witness :
  Enabled (mkLimiterConfig 2 4 true) = true /\
  Qle (Rps (mkLimiterConfig 2 4 true)) (inject_Z Second) /\
  (∅ : clients_map) !! "a"%string = None /\
  fst (serve (mkLimiterConfig 2 4 true) ∅ (map (pair "a"%string) (repeat 0 7)))
    = repeat true 4 ++ repeat false 3.
Proof.
  assert (H1 : Enabled (mkLimiterConfig 2 4 true) = true) by reflexivity.
  assert (H2 : Qle (Rps (mkLimiterConfig 2 4 true)) (inject_Z Second))
    by (rewrite Second_Q; unfold Qle; simpl; lia).
  assert (H3 : (∅ : clients_map) !! "a"%string = None) by reflexivity.
  split; [exact H1|]. split; [exact H2|]. split; [exact H3|].
  exact (fresh_identity_burst (mkLimiterConfig 2 4 true) ∅ "a"%string 0 7 H1 H2 H3).
Defined.

(** X13: the admission test works on the wait truncated to whole
    nanoseconds. At 3 tokens/s with burst 1, requests at 0 and at
    333333333 ns from a fresh identity are both admitted, although only
    0.999999999 token accrues between them: the wait of 1/3 ns truncates to
    0, and the second call leaves the count at [-1e-9]. At 2e9 tokens/s
    with burst 1, two simultaneous requests are both admitted. *)
Theorem subnanosecond_shortfall_admitted :
  let cfg := mkLimiterConfig 3 1 true in
  fst (serve cfg ∅ [("a"%string, 0); ("a"%string, 333333333)]) = [true; true] /\
  (exists c, snd (serve cfg ∅ [("a"%string, 0); ("a"%string, 333333333)]) !! "a"%string
               = Some c /\ Qeq (tokens (limiter c)) (-1 # 1000000000)) /\
  Qlt (tokensFromDuration 3 333333333) 1 /\
  fst (serve (mkLimiterConfig 2000000000 1 true) ∅
         [("a"%string, 0); ("a"%string, 0)]) = [true; true].
Proof.
  cbv zeta. split; [vm_compute; reflexivity|]. split; [|split; vm_compute; reflexivity].
  eexists. split; [vm_compute; reflexivity|]. vm_compute. reflexivity.
Qed.

End LimiterExtras.

Module ReloadExtras.
Import Limiting Reload Invariants Samples.

(** X4: a successful start leaves a consistent state: the limiter
    settings, the connection string and the SMTP settings are those of the
    loaded [cfgDynamic], the pool in use was opened with that connection
    string and is the only allocation so far, nothing is closed, and the
    registry is empty. *)
Theorem startup_consistent (r1 r2 r3 : ReadResult) (t1 t2 t3 : Z) (penv : PoolEnv)
    (a : App) :
  startup r1 r2 r3 t1 t2 t3 penv = Running a ->
  Consistent a /\ closedPools a = [] /\ clients a = ∅.
Proof.
  unfold startup.
  destruct (LoadConfig r1 _ t1) as [[e1|] c1]; [discriminate|].
  destruct (LoadConfig r2 c1 t2) as [[e2|] c2]; [discriminate|].
  destruct (LoadConfig r3 c2 t3) as [[e3|] c]; [discriminate|].
  cbn [CreatePool]. destruct penv; [discriminate|discriminate|].
  intros H. injection H as <-.
  unfold Consistent; cbn. repeat split; try reflexivity; try lia; try constructor.
  intros Hin. inversion Hin.
Qed.

Lemma startup_consistent_witness :
  started = Running sample_app /\ Consistent sample_app.
Proof.
  assert (H : started = Running sample_app) by (vm_compute; reflexivity).
  split; [exact H|].
  exact (proj1 (startup_consistent dynamic_env db_env smtp_env 0 1 2 PoolReady sample_app H)).
Defined.

Lemma onConfigChange_consistent s a now tl r penv a' :
  Consistent a -> source_reads s r = true ->
  onConfigChange s a now tl r penv = Running a' ->
  Consistent a' /\ clients a' = clients a.
Proof.
  intros Hc Hs. unfold onConfigChange.
  destruct (passes a now); [|intros H; injection H as <-; now split].
  destruct a as [cfg lc cs sm p cl np lg cls].
  destruct Hc as (H1 & H2 & H3 & H4 & H5 & H6 & H7 & H8). cbn in *.
  destruct r as [e|e|d]; cbn; [discriminate|discriminate|].
  destruct s, d as [f|f|f]; try discriminate; cbn.
  - intros H. injection H as <-. unfold Consistent; cbn.
    subst. repeat split; assumption.
  - destruct penv; cbn; [discriminate|discriminate|].
    intros H. injection H as <-. unfold Consistent; cbn.
    subst. repeat split; try reflexivity.
    + lia.
    + intros Hin. apply elem_of_cons in Hin as [Hin|Hin]; [cbn in H5; lia|].
      apply list_elem_of_In in Hin. rewrite List.Forall_forall in H7.
      specialize (H7 _ Hin). lia.
    + constructor; [cbn in H5; lia|].
      eapply Forall_impl; [exact H7|]. intros i Hi; cbn in *; lia.
    + constructor; assumption.
  - intros H. injection H as <-. unfold Consistent; cbn.
    subst. repeat split; assumption.
Qed.

Lemma watch_exited s code a clock evs : watch s (Exited code a) clock evs = Exited code a.
Proof. destruct evs; reflexivity. Qed.

(** X5: every callback of a watcher keeps the state consistent when it
    returns normally (the file of each watcher holding its own kind of
    data), and never touches the rate-limiter registry; so does any run of
    the watcher's loop over a sequence of notifications. *)
Theorem reload_preserves_consistency (s : Source) (a : App) :
  Consistent a ->
  (forall now tl r penv a', source_reads s r = true ->
     onConfigChange s a now tl r penv = Running a' ->
     Consistent a' /\ clients a' = clients a) /\
  (forall clock evs a', Forall (fun e => source_reads s (ev_read e) = true) evs ->
     watch s (Running a) clock evs = Running a' ->
     Consistent a' /\ clients a' = clients a).
Proof.
  intros Hc. split; [intros; eapply onConfigChange_consistent; eassumption|].
  intros clock evs. revert a Hc clock.
  induction evs as [|e evs IH]; intros a Hc clock a' Hf Hw.
  - cbn in Hw. injection Hw as <-. now split.
  - inversion Hf as [|? ? He Hrest]; subst. cbn in Hw.
    destruct (onConfigChange s a _ _ (ev_read e) (ev_pool e)) as [a1|code a1] eqn:E.
    + destruct (onConfigChange_consistent _ _ _ _ _ _ _ Hc He E) as [Hc1 Hcl1].
      destruct (IH a1 Hc1 _ a' Hrest Hw) as [Hc2 Hcl2]. split; congruence.
    + rewrite watch_exited in Hw. discriminate.
Qed.

Lemma reload_preserves_consistency_witness :
  Consistent sample_app /\
  Consistent (proc_app (watch DynamicDB (Running sample_app) Second
                          (write_events db_env (200 * Millisecond)))).
Proof.
  assert (Hc : Consistent sample_app).
  { vm_compute. repeat split; try reflexivity; try lia; try constructor.
    intros Hin. inversion Hin. }
  split; [exact Hc|].
  set (p := watch DynamicDB (Running sample_app) Second
              (write_events db_env (200 * Millisecond))).
  assert (Hp : p = Running (proc_app p)) by (vm_compute; reflexivity).
  refine (proj1 (proj2 (reload_preserves_consistency DynamicDB sample_app Hc)
                  Second _ (proc_app p) _ Hp)).
  repeat constructor.
Defined.

End ReloadExtras.

Module MiddlewareExtras.
Import Http Middleware.

Lemma headerGet_set_eq k v h : headerGet ((k, v) :: filter (fun kv => kv.1 <> k) h) k = v.
Proof. simpl. now rewrite String.eqb_refl. Qed.

Lemma headerGet_filter_ne k k' h :
  k' <> k -> headerGet (filter (fun kv => kv.1 <> k) h) k' = headerGet h k'.
Proof.
  intros Hne. induction h as [|[k0 v0] h IH]; [reflexivity|].
  rewrite filter_cons. simpl.
  destruct (decide (k0 <> k)) as [Hk|Hk]; simpl.
  - destruct (String.eqb k0 k'); [reflexivity|exact IH].
  - apply dec_stable in Hk. subst k0.
    replace (String.eqb k k') with false by (symmetry; apply String.eqb_neq; congruence).
    exact IH.
Qed.

Lemma headerGet_app_ne h k v k' :
  k' <> k -> headerGet (h ++ [(k, v)]) k' = headerGet h k'.
Proof.
  intros Hne. induction h as [|[k0 v0] h IH]; simpl.
  - replace (String.eqb k k') with false by (symmetry; apply String.eqb_neq; congruence).
    reflexivity.
  - destruct (String.eqb k0 k'); [reflexivity|exact IH].
Qed.

Lemma In_filter_ne (k v k' : string) (h : list (string * string)) :
  In (k, v) h -> k <> k' -> In (k, v) (filter (fun kv => kv.1 <> k') h).
Proof.
  intros Hin Hne. apply list_elem_of_In, list_elem_of_filter. split; [exact Hne|].
  now apply list_elem_of_In.
Qed.

Lemma written_SetHeader k v w : written (SetHeader k v w) = written w.
Proof. unfold SetHeader. destruct (written w) eqn:E; [exact E|reflexivity]. Qed.

Lemma written_AddHeader k v w : written (AddHeader k v w) = written w.
Proof. unfold AddHeader. destruct (written w) eqn:E; [exact E|reflexivity]. Qed.

Lemma corsLoop_untrusted origin ts r w :
  ~ In origin ts -> corsLoop origin ts r w = (w, false).
Proof.
  induction ts as [|o ts IH]; intros Hn; [reflexivity|]. simpl.
  destruct (String.eqb_spec origin o) as [->|Hne].
  - exfalso. apply Hn. now left.
  - apply IH. intros Hin. apply Hn. now right.
Qed.

Lemma corsLoop_trusted origin ts r w :
  In origin ts ->
  corsLoop origin ts r w =
    (let w := SetHeader "Access-Control-Allow-Origin" origin w in
     if String.eqb (Method (req r)) "OPTIONS" &&
        negb (String.eqb (headerGet (rHeader r) "Access-Control-Request-Method") "")
     then
       (WriteHeader 200 (SetHeader "Access-Control-Allow-Headers" "Authorization, Content-Type"
          (SetHeader "Access-Control-Allow-Methods" "OPTIONS, PUT, PATCH, DELETE" w)), true)
     else (w, false)).
Proof.
  induction ts as [|o ts IH]; intros Hin; [destruct Hin|]. simpl.
  destruct (String.eqb_spec origin o) as [->|Hne]; [reflexivity|].
  apply IH. destruct Hin as [->|Hin]; [congruence|exact Hin].
Qed.

(** X6: a preflight request (an [Origin] among the trusted origins, method
    OPTIONS and a non-empty [Access-Control-Request-Method]) is answered by
    [enableCORS] itself: status 200 with the allowed origin, methods and
    headers and both [Vary] values, no body and no log, and [next] is never
    run (any [next] gives the same result). *)
Theorem enableCORS_preflight (trustedOrigins : list string) (next : RHandler)
    (r : Req) (w : ResponseWriter) (l : list HttpLog) :
  written w = None ->
  headerGet (rHeader r) "Origin" <> "" ->
  In (headerGet (rHeader r) "Origin") trustedOrigins ->
  Method (req r) = "OPTIONS" ->
  headerGet (rHeader r) "Access-Control-Request-Method" <> "" ->
  (forall next', enableCORS trustedOrigins next' r w l = enableCORS trustedOrigins next r w l) /\
  let '(w', l', o) := enableCORS trustedOrigins next r w l in
  o = Returned /\ l' = l /\ written w' = Some 200 /\ body w' = body w /\
  headerGet (header w') "Access-Control-Allow-Origin" = headerGet (rHeader r) "Origin" /\
  headerGet (header w') "Access-Control-Allow-Methods" = "OPTIONS, PUT, PATCH, DELETE" /\
  headerGet (header w') "Access-Control-Allow-Headers" = "Authorization, Content-Type" /\
  In ("Vary", "Origin") (header w') /\
  In ("Vary", "Access-Control-Request-Method") (header w').
Proof.
  intros Hw Ho Hin Hm Hacrm. unfold enableCORS.
  set (origin := headerGet (rHeader r) "Origin") in *.
  replace (negb (String.eqb origin "")) with true
    by (symmetry; apply negb_true_iff, String.eqb_neq, Ho).
  rewrite corsLoop_trusted by exact Hin. cbv zeta.
  rewrite Hm. replace (negb (String.eqb (headerGet (rHeader r) "Access-Control-Request-Method") ""))
    with true by (symmetry; apply negb_true_iff, String.eqb_neq, Hacrm).
  simpl andb. cbv iota.
  split; [reflexivity|].
  unfold AddHeader at 2. unfold AddHeader. rewrite Hw. cbn [written header body].
  unfold SetHeader. cbn [written header body]. unfold WriteHeader. cbn [written header body].
  repeat split.
  - do 3 (right; apply In_filter_ne; [|discriminate]).
    apply in_or_app. left. apply in_or_app. right. now left.
  - do 3 (right; apply In_filter_ne; [|discriminate]).
    apply in_or_app. right. now left.
Qed.

Definition preflight_req : Req :=
  mkReq (mkRequest "OPTIONS" "/v1/movies")
    [("Origin", "http://localhost:9000"); ("Access-Control-Request-Method", "PUT")].

Definition unit_handler : RHandler := fun _ w l => (w, l, Returned).

Lemma enableCORS_preflight_witness :
  written freshRW = None /\
  written (fst (fst (enableCORS ["http://localhost:9000"] unit_handler preflight_req freshRW [])))
    = Some 200.
Proof.
  assert (H1 : written freshRW = None) by reflexivity.
  assert (H2 : headerGet (rHeader preflight_req) "Origin" <> "") by (vm_compute; discriminate).
  assert (H3 : In (headerGet (rHeader preflight_req) "Origin") ["http://localhost:9000"])
    by (simpl; left; reflexivity).
  assert (H4 : Method (req preflight_req) = "OPTIONS") by reflexivity.
  assert (H5 : headerGet (rHeader preflight_req) "Access-Control-Request-Method" <> "")
    by (vm_compute; discriminate).
  destruct (enableCORS_preflight ["http://localhost:9000"] unit_handler preflight_req
              freshRW [] H1 H2 H3 H4 H5) as [_ H].
  split; [exact H1|].
  destruct (enableCORS ["http://localhost:9000"] unit_handler preflight_req freshRW [])
    as [[w' l'] o]. simpl. apply H.
Defined.

(** X7: every request that is not such a preflight reaches [next], with a
    writer that has not been written and has the same body, and that
    carries both [Vary] values. Only a trusted non-empty [Origin] adds one
    more header, [Access-Control-Allow-Origin] set to that origin; any
    other origin (absent, or untrusted) adds only the two [Vary] values. *)
Theorem enableCORS_passes_through (trustedOrigins : list string) (r : Req)
    (w : ResponseWriter) (l : list HttpLog) :
  written w = None ->
  ~ (headerGet (rHeader r) "Origin" <> "" /\
     In (headerGet (rHeader r) "Origin") trustedOrigins /\
     Method (req r) = "OPTIONS" /\
     headerGet (rHeader r) "Access-Control-Request-Method" <> "") ->
  exists w',
    (forall next, enableCORS trustedOrigins next r w l = next r w' l) /\
    written w' = None /\ body w' = body w /\
    In ("Vary", "Origin") (header w') /\
    In ("Vary", "Access-Control-Request-Method") (header w') /\
    (headerGet (rHeader r) "Origin" <> "" -> In (headerGet (rHeader r) "Origin") trustedOrigins ->
       headerGet (header w') "Access-Control-Allow-Origin" = headerGet (rHeader r) "Origin" /\
       forall k, k <> "Access-Control-Allow-Origin" -> k <> "Vary" ->
         headerGet (header w') k = headerGet (header w) k) /\
    (headerGet (rHeader r) "Origin" = "" \/ ~ In (headerGet (rHeader r) "Origin") trustedOrigins ->
       header w' = header w ++ [("Vary", "Origin"); ("Vary", "Access-Control-Request-Method")]).
Proof.
  intros Hw Hnp. unfold enableCORS.
  set (origin := headerGet (rHeader r) "Origin") in *.
  set (w0 := AddHeader "Vary" "Access-Control-Request-Method" (AddHeader "Vary" "Origin" w)).
  assert (Hw0 : w0 = mkRW (header w ++ [("Vary", "Origin"); ("Vary", "Access-Control-Request-Method")])
                       None (body w)).
  { unfold w0, AddHeader. rewrite Hw. simpl. now rewrite <- app_assoc. }
  assert (Hv1 : In ("Vary", "Origin") (header w0))
    by (rewrite Hw0; apply in_or_app; right; now left).
  assert (Hv2 : In ("Vary", "Access-Control-Request-Method") (header w0))
    by (rewrite Hw0; apply in_or_app; right; right; now left).
  destruct (String.eqb_spec origin "") as [He|Hne]; simpl negb; cbv iota.
  { exists w0. rewrite Hw0 in *.
    split; [reflexivity|]. split; [reflexivity|]. split; [reflexivity|].
    split; [exact Hv1|]. split; [exact Hv2|].
    split; [intros Hc; contradiction|]. intros _; reflexivity. }
  destruct (List.in_dec String.string_dec origin trustedOrigins) as [Hin|Hnin].
  - rewrite corsLoop_trusted by exact Hin. cbv zeta.
    destruct (String.eqb (Method (req r)) "OPTIONS" &&
              negb (String.eqb (headerGet (rHeader r) "Access-Control-Request-Method") ""))
      eqn:Ep.
    { exfalso. apply Hnp. apply andb_true_iff in Ep as [E1 E2].
      apply String.eqb_eq in E1. apply negb_true_iff, String.eqb_neq in E2. tauto. }
    exists (SetHeader "Access-Control-Allow-Origin" origin w0).
    rewrite Hw0 in *. unfold SetHeader. simpl written. cbn [header body] in *.
    split; [reflexivity|]. split; [reflexivity|]. split; [reflexivity|].
    split; [right; now apply In_filter_ne|]. split; [right; now apply In_filter_ne|].
    split.
    + intros _ _. split; [simpl; rewrite ?String.eqb_refl; reflexivity|].
      intros k Hk Hv. cbn [headerGet header].
      replace (String.eqb "Access-Control-Allow-Origin" k) with false
        by (symmetry; apply String.eqb_neq; congruence).
      rewrite headerGet_filter_ne by exact Hk.
      change [("Vary", "Origin"); ("Vary", "Access-Control-Request-Method")]
        with ([("Vary", "Origin")] ++ [("Vary", "Access-Control-Request-Method")]).
      rewrite app_assoc, !headerGet_app_ne by exact Hv. reflexivity.
    + intros [Hc|Hc]; contradiction.
  - rewrite corsLoop_untrusted by exact Hnin.
    exists w0. rewrite Hw0 in *.
    split; [reflexivity|]. split; [reflexivity|]. split; [reflexivity|].
    split; [exact Hv1|]. split; [exact Hv2|].
    split; [intros _ Hc; contradiction|]. intros _; reflexivity.
Qed.

Definition plain_req : Req := mkReq (mkRequest "GET" "/v1/movies") [].

Lemma enableCORS_passes_through_witness :
  written freshRW = None /\
  exists w', forall next, enableCORS ["http://localhost:9000"] next plain_req freshRW [] = next plain_req w' [].
Proof.
  assert (H1 : written freshRW = None) by reflexivity.
  assert (H2 : ~ (headerGet (rHeader plain_req) "Origin" <> "" /\
                  In (headerGet (rHeader plain_req) "Origin") ["http://localhost:9000"] /\
                  Method (req plain_req) = "OPTIONS" /\
                  headerGet (rHeader plain_req) "Access-Control-Request-Method" <> ""))
    by (simpl; intros [Hc _]; apply Hc; reflexivity).
  destruct (enableCORS_passes_through ["http://localhost:9000"] plain_req freshRW [] H1 H2)
    as [w' [Hn _]].
  split; [exact H1|]. exists w'. exact Hn.
Defined.

End MiddlewareExtras.

Module AuthExtras.
Import Http Middleware.

Lemma splitSpace_bearer tok : splitSpace ("Bearer " ++ tok) = "Bearer" :: splitSpace tok.
Proof. reflexivity. Qed.

Lemma Valid_token tok : Valid (ValidateTokenPlaintext [] tok) = (String.length tok =? 26)%nat.
Proof.
  destruct tok as [|c s]; [reflexivity|].
  unfold ValidateTokenPlaintext, Check. cbn [String.eqb negb].
  destruct (String.length (String c s) =? 26)%nat; reflexivity.
Qed.

(** X8: what [authenticate] does with a request. Without an
    [Authorization] header the anonymous user reaches [next]. With a header
    ["Bearer " ++ token] (a token without spaces), a token that is not
    26 bytes long is refused with 401 before any lookup; a 26-byte token
    is looked up in the [authentication] scope: a user found reaches
    [next], an unknown token gives 401, any other error 500 (and is
    logged). Every path adds [Vary: Authorization] first. *)
Theorem authenticate_outcomes (GetForToken : string -> string -> TokenLookup)
    (next : UHandler) (w : ResponseWriter) (l : list HttpLog) :
  (forall r, headerGet (rHeader r) "Authorization" = "" ->
     authenticate GetForToken next r w l
       = next AnonymousUser r (AddHeader "Vary" "Authorization" w) l) /\
  (forall r tok, headerGet (rHeader r) "Authorization" = ("Bearer " ++ tok)%string ->
     splitSpace tok = [tok] ->
     let w0 := AddHeader "Vary" "Authorization" w in
     authenticate GetForToken next r w l =
       if (String.length tok =? 26)%nat then
         match GetForToken "authentication" tok with
         | Found u => next (UserOf u) r w0 l
         | ErrRecordNotFound => (invalidAuthenticationTokenResponse w0, l, Returned)
         | LookupErr e => (errorResponse w0 500 serverErrorMessage, logError (req r) e l, Returned)
         end
       else (invalidAuthenticationTokenResponse w0, l, Returned)).
Proof.
  split.
  - intros r H. unfold authenticate. rewrite H. reflexivity.
  - intros r tok H Htok w0. unfold authenticate. rewrite H.
    replace (String.eqb ("Bearer " ++ tok) "") with false by reflexivity.
    rewrite splitSpace_bearer, Htok. cbv beta iota.
    rewrite String.eqb_refl, Valid_token. fold w0.
    destruct (String.length tok =? 26)%nat; [|reflexivity].
    unfold ScopeAuthentication. destruct (GetForToken "authentication" tok); reflexivity.
Qed.

(** X9: an [Authorization] header that is present but does not split at
    single spaces into exactly ["Bearer"] and one more piece (another
    scheme, a lower-case "bearer", two spaces, no token part, extra parts)
    is refused without looking anything up and without running [next]:
    the response is 401 with [WWW-Authenticate: Bearer], and nothing is
    logged. *)
Theorem authenticate_rejects_malformed (GetForToken : string -> string -> TokenLookup)
    (next : UHandler) (r : Req) (w : ResponseWriter) (l : list HttpLog) :
  headerGet (rHeader r) "Authorization" <> "" ->
  (forall tok, splitSpace (headerGet (rHeader r) "Authorization") <> ["Bearer"; tok]) ->
  authenticate GetForToken next r w l
    = (invalidAuthenticationTokenResponse (AddHeader "Vary" "Authorization" w), l, Returned) /\
  (written w = None ->
   written (invalidAuthenticationTokenResponse (AddHeader "Vary" "Authorization" w)) = Some 401 /\
   headerGet (header (invalidAuthenticationTokenResponse (AddHeader "Vary" "Authorization" w)))
     "WWW-Authenticate" = "Bearer").
Proof.
  intros Hne Hsplit. split.
  - unfold authenticate.
    replace (String.eqb (headerGet (rHeader r) "Authorization") "") with false
      by (symmetry; apply String.eqb_neq, Hne).
    destruct (splitSpace (headerGet (rHeader r) "Authorization")) as [|p0 [|tok [|x rest]]] eqn:E;
      try reflexivity.
    destruct (String.eqb_spec p0 "Bearer") as [->|Hp]; [|reflexivity].
    exfalso. exact (Hsplit tok eq_refl).
  - intros Hw. unfold invalidAuthenticationTokenResponse, errorResponse, writeJSON,
      Write, WriteHeader, SetHeader, AddHeader.
    rewrite Hw. split; reflexivity.
Qed.

Definition basic_req : Req :=
  mkReq (mkRequest "GET" "/v1/movies") [("Authorization", "Basic dXNlcjpwYXNz")].

Definition no_token_lookup : string -> string -> TokenLookup := fun _ _ => ErrRecordNotFound.

Definition authed_handler : UHandler := fun _ _ w l => (w, l, Returned).

Lemma authenticate_rejects_malformed_witness :
  headerGet (rHeader basic_req) "Authorization" <> "" /\
  written (fst (fst (authenticate no_token_lookup authed_handler basic_req freshRW []))) = Some 401.
Proof.
  assert (H1 : headerGet (rHeader basic_req) "Authorization" <> "") by (vm_compute; discriminate).
  assert (H2 : forall tok, splitSpace (headerGet (rHeader basic_req) "Authorization")
                           <> ["Bearer"; tok]) by (intros tok; vm_compute; discriminate).
  destruct (authenticate_rejects_malformed no_token_lookup authed_handler basic_req freshRW []
              H1 H2) as [He Hs].
  split; [exact H1|]. rewrite He. simpl fst. apply (Hs eq_refl).
Defined.

End AuthExtras.

Module MetricsExtras.
Import Http Middleware.

Lemma written_WriteHeader c w :
  written (WriteHeader c w) = Some (default c (written w)).
Proof. unfold WriteHeader. destruct (written w) eqn:E; [exact E|reflexivity]. Qed.

Lemma written_applyRW_set k v w : written (SetHeader k v w) = written w.
Proof. unfold SetHeader. destruct (written w) eqn:E; [exact E|reflexivity]. Qed.

Lemma written_applyRW_add k v w : written (AddHeader k v w) = written w.
Proof. unfold AddHeader. destruct (written w) eqn:E; [exact E|reflexivity]. Qed.

Definition mrw_agrees (m : metricsResponseWriter) : Prop :=
  headerWritten m = bool_decide (is_Some (written (wrapped m))) /\
  statusCode m = default 200 (written (wrapped m)).

Lemma applyMRW_agrees op m :
  mrw_agrees m -> wrapped (applyMRW op m) = applyRW op (wrapped m) /\ mrw_agrees (applyMRW op m).
Proof.
  destruct m as [w sc hw]. unfold mrw_agrees. cbn. intros [Hh Hs].
  destruct op as [k v|k v|c|c];
    unfold applyMRW, applyRW, mrwHeader, mrwWriteHeader, mrwWrite,
      SetHeader, AddHeader, WriteHeader, Write;
    cbn; destruct (written w) as [s|] eqn:E; cbn in *; subst;
    repeat split; simpl; rewrite ?E; reflexivity.
Qed.

Lemma runMRW_agrees ops m :
  mrw_agrees m -> wrapped (runMRW ops m) = runRW ops (wrapped m) /\ mrw_agrees (runMRW ops m).
Proof.
  revert m. induction ops as [|op ops IH]; intros m Hm; [now split|].
  change (runMRW (op :: ops) m) with (runMRW ops (applyMRW op m)).
  change (runRW (op :: ops) (wrapped m)) with (runRW ops (applyRW op (wrapped m))).
  destruct (applyMRW_agrees op m Hm) as [Hw Ha]. rewrite <- Hw. apply IH, Ha.
Qed.

(** X11: [metricsResponseWriter] is transparent and records the status the
    client gets. Whatever a handler does with it ([Header().Set/Add],
    [WriteHeader], [Write], in any order and number), the wrapped writer
    ends exactly as if the handler had used it directly; [headerWritten]
    tells whether the header went out; and [statusCode] is the status that
    was sent: the first [WriteHeader], 200 for a [Write] before any
    [WriteHeader], or 200 when nothing was written (net/http's default). *)
Theorem metricsResponseWriter_tracks_status (ops : list WOp) (w : ResponseWriter) :
  written w = None ->
  let m := runMRW ops (newMetricsResponseWriter w) in
  wrapped m = runRW ops w /\
  headerWritten m = bool_decide (is_Some (written (runRW ops w))) /\
  statusCode m = default 200 (written (runRW ops w)).
Proof.
  intros Hw m.
  assert (H0 : mrw_agrees (newMetricsResponseWriter w))
    by (unfold mrw_agrees; cbn; rewrite Hw; now split).
  destruct (runMRW_agrees ops _ H0) as [Hwr [Hh Hs]]. fold m in Hwr, Hh, Hs.
  cbn in Hwr. rewrite <- Hwr. now split.
Qed.

Lemma metricsResponseWriter_tracks_status_witness :
  written freshRW = None /\
  statusCode (runMRW [OpSet "Content-Type" "application/json"; OpWrite (Raw "{}");
                      OpWriteHeader 500] (newMetricsResponseWriter freshRW)) = 200.
Proof.
  assert (H : written freshRW = None) by reflexivity.
  split; [exact H|].
  destruct (metricsResponseWriter_tracks_status
              [OpSet "Content-Type" "application/json"; OpWrite (Raw "{}"); OpWriteHeader 500]
              freshRW H) as [_ [_ Hs]].
  rewrite Hs. vm_compute. reflexivity.
Defined.

Lemma lookup_mapAdd_total key d (m : gmap string Z) k :
  default 0 (mapAdd key d m !! k) = default 0 (m !! k) + (if String.eqb key k then d else 0).
Proof.
  unfold mapAdd. destruct (String.eqb_spec key k) as [->|Hne].
  - rewrite lookup_insert_eq. simpl. reflexivity.
  - rewrite lookup_insert_ne by exact Hne. lia.
Qed.

(** X12: the [expvar] counters of [metrics] over any sequence of requests,
    each on a fresh connection: received and sent both grow by the number
    of requests, the processing time by the sum of their durations, each
    client receives exactly the response the handler produced (the
    wrapper changes nothing), and the counter of every status code [c]
    (under the key [strconv.Itoa(c)]) grows by the number of responses
    actually sent with status [c]. *)
Theorem metrics_counters (reqs : list (list WOp * Z)) (m : Metrics) :
  let '(ws, m') := serveMetrics reqs m in
  total_requests_received m' = total_requests_received m + Z.of_nat (length reqs) /\
  total_responses_sent m' = total_responses_sent m + Z.of_nat (length reqs) /\
  total_processing_time_us m' = total_processing_time_us m + fold_right Z.add 0 (map snd reqs) /\
  ws = map (fun req => runRW req.1 freshRW) reqs /\
  forall c, default 0 (total_responses_sent_by_status m' !! Itoa c)
    = default 0 (total_responses_sent_by_status m !! Itoa c)
      + Z.of_nat (length (filter (fun w => default 200 (written w) = c) ws)).
Proof.
  revert m. induction reqs as [|[ops d] reqs IH]; intros m.
  - cbn. repeat split; lia.
  - cbn [serveMetrics]. unfold metrics at 1. cbv zeta.
    destruct (metricsResponseWriter_tracks_status ops freshRW eq_refl) as [Hw [_ Hs]].
    set (mrw := runMRW ops (newMetricsResponseWriter freshRW)) in *.
    set (m1 := mkMetrics _ _ _ _).
    specialize (IH m1).
    destruct (serveMetrics reqs m1) as [ws m'] eqn:E.
    destruct IH as (H1 & H2 & H3 & H4 & H5).
    unfold m1 in H1, H2, H3, H5; cbn in H1, H2, H3, H5.
    split; [rewrite H1; cbn [length]; lia|].
    split; [rewrite H2; cbn [length]; lia|].
    split; [rewrite H3; cbn; lia|].
    split; [cbn; now rewrite Hw, H4|].
    intros c. rewrite H5, lookup_mapAdd_total, filter_cons. rewrite Hs, Hw.
    unfold Itoa. destruct (String.eqb_spec (pretty (default 200 (written (runRW ops freshRW))))
                            (pretty c)) as [Hp|Hp].
    + apply (inj pretty) in Hp. rewrite decide_True by exact Hp.
      cbn [length]. lia.
    + rewrite decide_False by (intros Hc; apply Hp; now rewrite Hc). lia.
Qed.

End MetricsExtras.
